(** * nuxt3Ex composables: [useN3EG] and [useRequest]

    A shallow embedding of the two composables of the repository,
    [src/composables/useN3EG.ts] and [src/composables/useRequest.ts],
    together with the properties of the error-normalisation hook, the
    header-injection hook, the GET helper and the toggleable text.

    The TypeScript code works on untyped values ([ctx: any],
    [MaybeRef<unknown>]), so the embedding starts with a small model of
    JavaScript values: truthiness, property reads that throw a
    [TypeError] on [null] and [undefined], optional chaining, the
    short-circuit operators and property assignment on object literals. *)

From Stdlib Require Import ZArith List String Ascii Bool Lia.
From Stdlib Require Import DecimalString.
From ExtLib Require Import Structures.Monad Structures.MonadState Structures.MonadExc.
From ExtLib Require Import Data.Monads.StateMonad Data.Monads.EitherMonad.
Import ListNotations.
Import MonadNotation.
Local Open Scope monad_scope.
Local Open Scope string_scope.
Local Open Scope Z_scope.

(* ===================================================================== *)
(** ** JavaScript values *)
(* ===================================================================== *)

Module Js.

(** Values as [JSON.parse] and the hooks produce them.  Numbers are the
    integer-valued ones (status codes, counters); an object keeps its
    properties in insertion order. *)
#[warnings="-register-all"]
Inductive JsVal : Type :=
| VUndef
| VNull
| VBool (b : bool)
| VNum (z : Z)
| VStr (s : string)
| VArr (items : list JsVal)
| VObj (fields : list (string * JsVal)).

Definition Fields : Type := list (string * JsVal).

(** The only exception the modelled code can raise: reading a property of
    [null] or [undefined]. *)
Inductive Exn : Type := TypeError.

(** A computation that completes normally ([inr]) or throws ([inl]). *)
Definition Completion : Type -> Type := sum Exn.

(** ToBoolean. *)
Definition truthy (v : JsVal) : bool :=
  match v with
  | VUndef | VNull => false
  | VBool b => b
  | VNum z => negb (z =? 0)
  | VStr s => negb (String.eqb s "")
  | VArr _ | VObj _ => true
  end.

(** [v == null]: the values optional chaining stops at. *)
Definition nullish (v : JsVal) : bool :=
  match v with
  | VUndef | VNull => true
  | _ => false
  end.

(** Own-property lookup; a missing property reads as [undefined]. *)
Fixpoint lookup (k : string) (fs : Fields) : JsVal :=
  match fs with
  | [] => VUndef
  | (k', v) :: rest => if String.eqb k' k then v else lookup k rest
  end.

Definition has_key (k : string) (fs : Fields) : bool :=
  existsb (fun p => String.eqb (fst p) k) fs.

(** [obj[k] = v] on the property list: an existing property keeps its
    place, a new one goes last. *)
Fixpoint assign (k : string) (v : JsVal) (fs : Fields) : Fields :=
  match fs with
  | [] => [(k, v)]
  | (k', v') :: rest =>
      if String.eqb k' k then (k', v) :: rest else (k', v') :: assign k v rest
  end.

Definition string_of_nat (n : nat) : string :=
  NilEmpty.string_of_uint (Nat.to_uint n).

(** Decimal digits: what [Number::toString] gives for an integer of
    magnitude below 2^53. *)
Definition string_of_Z (z : Z) : string :=
  NilEmpty.string_of_int (Z.to_int z).

(** [v.k] for a name [k] that is not an array index.  The names the
    source reads ([detail], [message], [msg], [loc], [id]) are no
    members of any built-in prototype, so on arrays, strings, numbers and
    booleans they read as [undefined]. *)
Definition getProp (v : JsVal) (k : string) : Completion JsVal :=
  match v with
  | VUndef | VNull => raise TypeError
  | VObj fs => ret (lookup k fs)
  | VArr items =>
      ret (if String.eqb k "length" then VNum (Z.of_nat (List.length items))
           else VUndef)
  | VStr s =>
      ret (if String.eqb k "length" then VNum (Z.of_nat (String.length s))
           else VUndef)
  | VBool _ | VNum _ => ret VUndef
  end.

(** [v[i]] for a numeric index. *)
Definition getIndex (v : JsVal) (i : nat) : Completion JsVal :=
  match v with
  | VUndef | VNull => raise TypeError
  | VObj fs => ret (lookup (string_of_nat i) fs)
  | VArr items => ret (nth i items VUndef)
  | VStr s =>
      ret (match String.get i s with
           | Some c => VStr (String c EmptyString)
           | None => VUndef
           end)
  | VBool _ | VNum _ => ret VUndef
  end.

(** [v?.k] and [v?.[i]]. *)
Definition optProp (v : JsVal) (k : string) : Completion JsVal :=
  if nullish v then ret VUndef else getProp v k.

Definition optIndex (v : JsVal) (i : nat) : Completion JsVal :=
  if nullish v then ret VUndef else getIndex v i.

(** [a || b] and [a && b]: the right operand is only run when the left
    one does not decide. *)
Definition js_or (a b : Completion JsVal) : Completion JsVal :=
  x <- a ;; if truthy x then ret x else b.

Definition js_and (a b : Completion JsVal) : Completion JsVal :=
  x <- a ;; if truthy x then b else ret x.

Section Printing.

(** [Number::toString], the engine's printing of a number (decimal
    digits for small integers, exponent form from 1e21 on), belongs to
    the language and not to the repository: it is a parameter. *)
Variable NumberToString : Z -> string.

(** ToString, as a template literal applies it. *)
Fixpoint ToString (v : JsVal) : string :=
  match v with
  | VUndef => "undefined"
  | VNull => "null"
  | VBool true => "true"
  | VBool false => "false"
  | VNum z => NumberToString z
  | VStr s => s
  | VArr items =>
      let elem (x : JsVal) : string :=
        match x with
        | VUndef | VNull => ""
        | _ => ToString x
        end in
      (fix join (l : list JsVal) : string :=
         match l with
         | [] => ""
         | [x] => elem x
         | x :: rest => elem x ++ "," ++ join rest
         end) items
  | VObj _ => "[object Object]"
  end.

End Printing.

End Js.

Import Js.

Infix "<||>" := js_or (at level 51, right associativity).
Infix "<&&>" := js_and (at level 41, right associativity).

(* ===================================================================== *)
(** ** [useN3EG]: the toggleable text *)
(* ===================================================================== *)

Module N3EG.

(** The composable owns one [ref]; its state is the ref's value. *)
Record Store : Type := { text : string }.

(** [const text = ref('N3EG')] *)
Definition init : Store := {| text := "N3EG" |}.

(** [edit] and [reset] assign [text.value]. *)
Definition edit (value : string) : state Store unit :=
  put {| text := value |}.

Definition reset : state Store unit :=
  put {| text := "N3EG" |}.

(** A caller's use of the returned handle: a sequence of calls. *)
Inductive Call : Type :=
| CallEdit (value : string)
| CallReset.

Definition call (c : Call) : state Store unit :=
  match c with
  | CallEdit value => edit value
  | CallReset => reset
  end.

Fixpoint calls (cs : list Call) : state Store unit :=
  match cs with
  | [] => ret tt
  | c :: rest => call c ;; calls rest
  end.

End N3EG.

(* ===================================================================== *)
(** ** [useRequest]: hooks and the GET helper *)
(* ===================================================================== *)

Module Request.

(** [import.meta.env]: the mode and the two optional tokens. *)
Record Env : Type := {
  MODE : string;
  VITE_BASF_GITLAB_TOKEN : option string;
  VITE_BASF_FEDERATION_ACCESS_TOKEN : option string
}.

(** Truthiness of an environment entry: set and not empty. *)
Definition env_truthy (e : option string) : bool :=
  match e with
  | Some s => negb (String.eqb s "")
  | None => false
  end.

Definition env_value (e : option string) : string :=
  match e with
  | Some s => s
  | None => "undefined"
  end.

(** The request options the pre-request hook receives: the headers, a
    plain object when present, and the fields the hook does not touch. *)
Record FetchOptions : Type := {
  headers : option Fields;
  others : Fields
}.

(** [Object.assign(options.headers || {}, { key: value })] *)
Definition assign_header (o : FetchOptions) (key value : string) : FetchOptions :=
  {| headers := Some (assign key (VStr value)
                        (match headers o with Some h => h | None => [] end));
     others := others o |}.

Definition beforeFetch (env : Env) (options : FetchOptions) : FetchOptions :=
  if String.eqb (MODE env) "development" then
    let options :=
      if env_truthy (VITE_BASF_GITLAB_TOKEN env)
      then assign_header options "X-Gitlab-Token"
             (env_value (VITE_BASF_GITLAB_TOKEN env))
      else options in
    let options :=
      if env_truthy (VITE_BASF_FEDERATION_ACCESS_TOKEN env)
      then assign_header options "Authorization"
             ("Bearer " ++ env_value (VITE_BASF_FEDERATION_ACCESS_TOKEN env))
      else options in
    options
  else options.

(** The header a request carries under a name, if any. *)
Definition header (o : FetchOptions) (key : string) : option JsVal :=
  match headers o with
  | Some h => if has_key key h then Some (lookup key h) else None
  | None => None
  end.

(** The part of a [Response] the error hook reads. *)
Record Response : Type := {
  status : Z;
  url : string
}.

(** The context [onFetchError] receives: the decoded body, the error so
    far, and the response, absent when the request never got one. *)
Record Ctx : Type := {
  data : JsVal;
  error : JsVal;
  response : option Response
}.

Definition set_error (ctx : Ctx) (e : JsVal) : Ctx :=
  {| data := data ctx; error := e; response := response ctx |}.

Definition messageResponse (ctx : Ctx) : Completion JsVal :=
  match response ctx with
  | None => ret VUndef
  | Some _ =>
      if negb (truthy (data ctx)) then ret VUndef
      else
        d <- (ret (data ctx) <&&> getProp (data ctx) "detail") ;;
        if truthy d then
          (detail <- getProp (data ctx) "detail" ;;
           first <- optIndex detail 0 ;;
           optProp first "msg")
          <||> (detail <- getProp (data ctx) "detail" ;; getProp detail "message")
          <||> (detail <- getProp (data ctx) "detail" ;; getProp detail "msg")
          <||> getProp (data ctx) "detail"
        else
          getProp (data ctx) "message"
          <||> getProp (data ctx) "msg"
          <||> ret (data ctx)
  end.

(** [ctx.error.k = v] on the object literal just stored in [ctx.error]. *)
Definition set_field (k : string) (v : JsVal) (e : Fields) : Fields :=
  assign k v e.

(** The [if]/[else if] chain of [onFetchError] (lines 80-139): the
    object literal of the branch the status selects. *)
Definition classify (ctx : Ctx) (r : Response) : Completion Fields :=
  if (status r =? 422) || (status r =? 400) then
    message <- messageResponse ctx ;;
    location <- ((detail <- getProp (data ctx) "detail" ;;
                  first <- optIndex detail 0 ;;
                  optProp first "loc")
                 <||> ret VNull) ;;
    ret [("message", message); ("type", VStr "fastapiError");
         ("location", location)]
  else if status r =? 404 then
    message <- (messageResponse ctx <||> ret (VStr "Entity Not Found")) ;;
    location <- (detail <- optProp (data ctx) "detail" ;; optProp detail "id") ;;
    ret [("message", message); ("type", VStr "notFound");
         ("location", location)]
  else if status r =? 502 then
    message <- (messageResponse ctx <||> ret (VStr "Bad Gateway")) ;;
    ret [("message", message); ("type", VStr "serverError")]
  else if status r =? 503 then
    message <- (messageResponse ctx
                <||> ret (VStr "Service is not available right now.")) ;;
    ret [("message", message); ("type", VStr "serverError")]
  else if status r =? 504 then
    message <- (messageResponse ctx <||> ret (VStr "Gateway Timeout Error")) ;;
    ret [("message", message); ("type", VStr "serverError")]
  else if status r =? 500 then
    message <- (messageResponse ctx
                <||> ret (VStr "Internal Server Error. The server unable to complete your request")) ;;
    ret [("errorCode", VNum 500); ("message", message);
         ("type", VStr "serverError")]
  else
    message <- (messageResponse ctx <||> ret (VStr "Miscellaneous Error")) ;;
    ret [("message", message); ("type", VStr "others")].

(** The post-error hook.  The three [console.error] calls leave [ctx]
    untouched and are not modelled. *)
Definition onFetchError (ctx : Ctx) : Completion Ctx :=
  match response ctx with
  | None =>
      ret (set_error ctx
             (VObj [("errorCode", VNum 500);
                    ("message", VStr "Failed to load response data | Unknown Error");
                    ("type", VStr "unknown")]))
  | Some r =>
      e <- classify ctx r ;;
      let e := set_field "errorCode" (VNum (status r)) e in
      let e := set_field "raw" (data ctx) e in
      let e := set_field "endpoint" (VStr (url r)) e in
      ret (set_error ctx (VObj e))
  end.

(** [MaybeRef<T>]: a plain value or a ref holding one. *)
Inductive MaybeRef (A : Type) : Type :=
| Plain (a : A)
| Ref (a : A).

Arguments Plain {A} a.
Arguments Ref {A} a.

Definition unref {A : Type} (r : MaybeRef A) : A :=
  match r with
  | Plain a => a
  | Ref a => a
  end.

Section UseGet.

(** The two imported helpers [useGet] calls: [isObject] of
    [@vueuse/core] and [stringifyQuery] of [vue-router]; and the
    engine's printing of numbers, which the template literal uses. *)
Variable isObject : JsVal -> bool.
Variable stringifyQuery : JsVal -> string.
Variable NumberToString : Z -> string.

(** The [queryString] constant of the computed URL. *)
Definition queryString (_query : JsVal) : JsVal :=
  if isObject _query then VStr (stringifyQuery _query)
  else if truthy _query then _query else VStr "".

(** The computed [_url] that [useGet] hands to [useRequest]; an
    omitted [query] argument is [undefined]. *)
Definition useGet_url (url : MaybeRef string) (query : MaybeRef JsVal) : string :=
  let _url := unref url in
  let _query := unref query in
  let queryString := queryString _query in
  _url ++ (if truthy queryString then "?" else "")
       ++ ToString NumberToString queryString.

End UseGet.

(** For running [useGet] on concrete inputs: the plain-object test,
    which is [true] on an object and [false] on every other value, and a
    serialiser that answers the same string for every query.  The
    theorems on [useGet] hold for any serialiser; this one fixes the
    answer at the input it is used on. *)
Definition plain_object (v : JsVal) : bool :=
  match v with
  | VObj _ => true
  | _ => false
  end.

Definition constant_serializer (answer : string) (_ : JsVal) : string := answer.

(** [baseUrl] (lines 19-21): the configured backend when
    [VITE_BASE_URL] is truthy, else FastAPI's default port. *)
Definition baseUrl (VITE_BASE_URL : option string) : string :=
  if env_truthy VITE_BASE_URL then env_value VITE_BASE_URL
  else "http://localhost:5000".

End Request.

Import Request.

(* ===================================================================== *)
(** ** Reading the result of the hook *)
(* ===================================================================== *)

(** The value of property [k] of the error object a context carries. *)
Definition error_field (ctx : Ctx) (k : string) : JsVal :=
  match error ctx with
  | VObj fs => lookup k fs
  | _ => VUndef
  end.

(** Whether the error object has an own property [k]. *)
Definition error_has (ctx : Ctx) (k : string) : bool :=
  match error ctx with
  | VObj fs => has_key k fs
  | _ => false
  end.

(** [v.k] where the read cannot throw. *)
Definition field (v : JsVal) (k : string) : JsVal :=
  match getProp v k with
  | inr w => w
  | inl _ => VUndef
  end.

(** The first truthy candidate, else the last resort: the value of
    [c1 || c2 || ... || last]. *)
Fixpoint first_truthy (candidates : list JsVal) (last : JsVal) : JsVal :=
  match candidates with
  | [] => last
  | c :: rest => if truthy c then c else first_truthy rest last
  end.

(** The status codes with a branch of their own. *)
Definition mapped_status (s : Z) : bool :=
  (s =? 422) || (s =? 400) || (s =? 404) || (s =? 502) || (s =? 503)
  || (s =? 504) || (s =? 500).

Definition with_response (body : JsVal) (s : Z) (u : string) : Ctx :=
  {| data := body; error := VUndef;
     response := Some {| status := s; url := u |} |}.

Definition without_response (body err : JsVal) : Ctx :=
  {| data := body; error := err; response := None |}.

(** [v?.k] and [v?.[i]] as values: optional chaining never throws. *)
Definition opt_field (v : JsVal) (k : string) : JsVal :=
  if nullish v then VUndef else field v k.

Definition item (v : JsVal) (i : nat) : JsVal :=
  match getIndex v i with
  | inr w => w
  | inl _ => VUndef
  end.

Definition opt_item (v : JsVal) (i : nat) : JsVal :=
  if nullish v then VUndef else item v i.

(** What message extraction yields, written as the ordered fallbacks of
    the specification: nothing without a response or a body; under a
    truthy [detail] the first validation error's [msg], then
    [detail.message], [detail.msg] and [detail] itself; otherwise the
    body's [message], its [msg], and the body itself. *)
Definition extracted_message (ctx : Ctx) : JsVal :=
  match response ctx with
  | None => VUndef
  | Some _ =>
      let body := data ctx in
      if truthy body then
        let detail := field body "detail" in
        if truthy detail then
          first_truthy [opt_field (opt_item detail 0) "msg";
                        field detail "message"; field detail "msg"] detail
        else first_truthy [field body "message"; field body "msg"] body
      else VUndef
  end.

(** The location of the validation branch: the first entry's [loc], or
    [null]. *)
Definition first_loc (body : JsVal) : JsVal :=
  first_truthy [opt_field (opt_item (field body "detail") 0) "loc"] VNull.

Definition is_fastapi_status (s : Z) : bool := (s =? 422) || (s =? 400).

(** The [type] each branch of the hook writes, by response. *)
Definition error_type (r : option Response) : string :=
  match r with
  | None => "unknown"
  | Some r =>
      if is_fastapi_status (status r) then "fastapiError"
      else if status r =? 404 then "notFound"
      else if status r =? 502 then "serverError"
      else if status r =? 503 then "serverError"
      else if status r =? 504 then "serverError"
      else if status r =? 500 then "serverError"
      else "others"
  end.

(** The default message of each branch that has one. *)
Definition default_message (s : Z) : string :=
  if s =? 404 then "Entity Not Found"
  else if s =? 502 then "Bad Gateway"
  else if s =? 503 then "Service is not available right now."
  else if s =? 504 then "Gateway Timeout Error"
  else if s =? 500
       then "Internal Server Error. The server unable to complete your request"
  else "Miscellaneous Error".

(** The text a single call of the handle leaves. *)
Definition text_after (c : N3EG.Call) : string :=
  match c with
  | N3EG.CallEdit value => value
  | N3EG.CallReset => "N3EG"
  end.

(** Further concrete inputs: a development environment holding both
    tokens, options that already carry an [Authorization] header, and
    bodies as FastAPI sends them. *)
Definition development_with_tokens : Env :=
  {| MODE := "development";
     VITE_BASF_GITLAB_TOKEN := Some "glpat-1234";
     VITE_BASF_FEDERATION_ACCESS_TOKEN := Some "eyJhbGciOi" |}.

Definition development_gitlab_only : Env :=
  {| MODE := "development";
     VITE_BASF_GITLAB_TOKEN := Some "glpat-1234";
     VITE_BASF_FEDERATION_ACCESS_TOKEN := Some "" |}.

Definition authorized_options : FetchOptions :=
  {| headers := Some [("Content-Type", VStr "application/json");
                      ("Authorization", VStr "Basic dXNlcjpwdw==")];
     others := [("mode", VStr "cors")] |}.

Definition not_authenticated_body : JsVal :=
  VObj [("detail", VStr "Not authenticated"); ("message", VStr "ignored")].

Definition two_errors_body : JsVal :=
  VObj [("detail",
         VArr [VObj [("msg", VStr "field required");
                     ("loc", VArr [VStr "body"; VStr "name"])];
               VObj [("msg", VStr "value is not a valid integer");
                     ("loc", VArr [VStr "body"; VStr "price"])]])].

(** Concrete inputs: two environments outside development mode, the
    options of the bound client, and the validation-error body of the
    specification's example. *)
Definition production_with_tokens : Env :=
  {| MODE := "production";
     VITE_BASF_GITLAB_TOKEN := Some "glpat-1234";
     VITE_BASF_FEDERATION_ACCESS_TOKEN := Some "eyJhbGciOi" |}.

Definition test_without_tokens : Env :=
  {| MODE := "test";
     VITE_BASF_GITLAB_TOKEN := None;
     VITE_BASF_FEDERATION_ACCESS_TOKEN := None |}.

Definition json_options : FetchOptions :=
  {| headers := Some [("Content-Type", VStr "application/json")];
     others := [("mode", VStr "cors")] |}.

Definition field_required_body : JsVal :=
  VObj [("detail",
         VArr [VObj [("msg", VStr "field required");
                     ("loc", VArr [VStr "body"; VStr "name"])]])].

(* ===================================================================== *)
(** ** Facts about the value model *)
(* ===================================================================== *)

Section JsFacts.

Lemma truthy_not_nullish (v : JsVal) : truthy v = true -> nullish v = false.
Proof. destruct v; simpl; congruence. Qed.

Lemma getProp_defined (v : JsVal) (k : string) :
  nullish v = false -> getProp v k = inr (field v k).
Proof. unfold field. destruct v; simpl; intros H; congruence. Qed.

Lemma getProp_nullish (v : JsVal) (k : string) :
  nullish v = true -> getProp v k = inl TypeError.
Proof. destruct v; simpl; intros H; congruence. Qed.

Lemma getIndex_defined (v : JsVal) (i : nat) :
  nullish v = false -> getIndex v i = inr (item v i).
Proof. unfold item. destruct v; simpl; intros H; congruence. Qed.

Lemma optProp_value (v : JsVal) (k : string) :
  optProp v k = inr (opt_field v k).
Proof.
  unfold optProp, opt_field. destruct (nullish v) eqn:E.
  - reflexivity.
  - now apply getProp_defined.
Qed.

Lemma optIndex_value (v : JsVal) (i : nat) :
  optIndex v i = inr (opt_item v i).
Proof.
  unfold optIndex, opt_item. destruct (nullish v) eqn:E.
  - reflexivity.
  - now apply getIndex_defined.
Qed.

Lemma js_or_value (a : JsVal) (b : Completion JsVal) :
  inr a <||> b = if truthy a then inr a else b.
Proof. reflexivity. Qed.

Lemma js_and_value (a : JsVal) (b : Completion JsVal) :
  inr a <&&> b = if truthy a then b else inr a.
Proof. reflexivity. Qed.

Lemma first_truthy_truthy (cs : list JsVal) (last : JsVal) :
  truthy last = true -> truthy (first_truthy cs last) = true.
Proof.
  intros H. induction cs as [|c cs IH]; simpl; [assumption|].
  destruct (truthy c) eqn:E; assumption.
Qed.

(** Property assignment. *)
Lemma lookup_assign_same (k : string) (v : JsVal) (fs : Fields) :
  lookup k (assign k v fs) = v.
Proof.
  induction fs as [|[k' v'] fs IH]; simpl.
  - now rewrite String.eqb_refl.
  - destruct (String.eqb k' k) eqn:E; simpl; rewrite E; auto.
Qed.

Lemma lookup_assign_other (k k' : string) (v : JsVal) (fs : Fields) :
  k <> k' -> lookup k (assign k' v fs) = lookup k fs.
Proof.
  intros Hne. induction fs as [|[k0 v0] fs IH]; simpl.
  - destruct (String.eqb_spec k' k); [congruence | reflexivity].
  - destruct (String.eqb_spec k0 k'); simpl.
    + subst k0. destruct (String.eqb_spec k' k); [congruence | reflexivity].
    + destruct (String.eqb k0 k); auto.
Qed.

Lemma has_key_assign_same (k : string) (v : JsVal) (fs : Fields) :
  has_key k (assign k v fs) = true.
Proof.
  unfold has_key. induction fs as [|[k' v'] fs IH]; simpl.
  - now rewrite String.eqb_refl.
  - destruct (String.eqb k' k) eqn:E; simpl; rewrite E; auto.
Qed.

Lemma has_key_assign_other (k k' : string) (v : JsVal) (fs : Fields) :
  k <> k' -> has_key k (assign k' v fs) = has_key k fs.
Proof.
  intros Hne. unfold has_key. induction fs as [|[k0 v0] fs IH]; simpl.
  - destruct (String.eqb_spec k' k); [congruence | reflexivity].
  - destruct (String.eqb_spec k0 k'); simpl.
    + reflexivity.
    + now rewrite IH.
Qed.

End JsFacts.

(* ===================================================================== *)
(** ** The error hook, branch by branch *)
(* ===================================================================== *)

Ltac js_reads :=
  cbn [bind ret Monad_either];
  repeat (first
    [ rewrite optProp_value
    | rewrite optIndex_value
    | rewrite getProp_defined by (auto using truthy_not_nullish)
    | rewrite js_or_value
    | rewrite js_and_value ];
    cbn [bind ret Monad_either]).

Section Hook.

(** Message extraction never throws, and yields the ordered
    fallbacks. *)
Lemma messageResponse_value (ctx : Ctx) :
  messageResponse ctx = inr (extracted_message ctx).
Proof.
  unfold messageResponse, extracted_message.
  destruct (response ctx) as [r|]; [|reflexivity].
  destruct (truthy (data ctx)) eqn:Hd; cbn [negb]; [|reflexivity].
  pose proof (truthy_not_nullish _ Hd) as Hn.
  js_reads. rewrite Hd.
  destruct (truthy (field (data ctx) "detail")) eqn:Hdet.
  - pose proof (truthy_not_nullish _ Hdet) as Hn'.
    js_reads. cbn [first_truthy]. rewrite ?Hdet.
    repeat match goal with
           | |- context [if truthy ?v then _ else _] => destruct (truthy v)
           end; reflexivity.
  - js_reads. cbn [first_truthy].
    repeat match goal with
           | |- context [if truthy ?v then _ else _] => destruct (truthy v)
           end; reflexivity.
Qed.

(** The extracted message is falsy only when there is no body to
    extract from, and is then [undefined]. *)
Lemma extracted_message_truthy (ctx : Ctx) (r : Response) :
  response ctx = Some r ->
  truthy (data ctx) = true ->
  truthy (extracted_message ctx) = true.
Proof.
  intros Hr Hd. unfold extracted_message. rewrite Hr, Hd. cbv zeta.
  destruct (truthy (field (data ctx) "detail")) eqn:Hdet;
    now apply first_truthy_truthy.
Qed.

Lemma extracted_message_absent (ctx : Ctx) :
  truthy (data ctx) = false -> extracted_message ctx = VUndef.
Proof.
  intros Hd. unfold extracted_message. rewrite Hd.
  now destruct (response ctx).
Qed.

(** Under a truthy [detail]: the first validation error's [msg], then
    [detail.message], [detail.msg], and [detail] itself. *)
Lemma messageResponse_detail (ctx : Ctx) (r : Response) :
  response ctx = Some r ->
  truthy (data ctx) = true ->
  truthy (field (data ctx) "detail") = true ->
  messageResponse ctx
  = inr (first_truthy
           [opt_field (opt_item (field (data ctx) "detail") 0) "msg";
            field (field (data ctx) "detail") "message";
            field (field (data ctx) "detail") "msg"]
           (field (data ctx) "detail")).
Proof.
  intros Hr Hd Hdet. rewrite messageResponse_value.
  unfold extracted_message. rewrite Hr, Hd. cbv zeta. now rewrite Hdet.
Qed.

(** A branch with a default: the extracted message, else the default. *)
Lemma message_or_default (ctx : Ctx) (default : string) :
  messageResponse ctx <||> ret (VStr default)
  = inr (first_truthy [extracted_message ctx] (VStr default)).
Proof.
  rewrite messageResponse_value, js_or_value. cbn [first_truthy].
  now destruct (truthy (extracted_message ctx)).
Qed.

(** The validation branch reads [ctx.data.detail] unguarded. *)
Lemma classify_fastapi (ctx : Ctx) (r : Response) :
  is_fastapi_status (status r) = true ->
  nullish (data ctx) = false ->
  classify ctx r
  = inr [("message", extracted_message ctx); ("type", VStr "fastapiError");
         ("location", first_loc (data ctx))].
Proof.
  unfold is_fastapi_status, classify. intros Hs Hn. rewrite Hs.
  rewrite messageResponse_value. cbn [bind ret Monad_either].
  rewrite (getProp_defined _ _ Hn). js_reads.
  unfold first_loc. cbn [first_truthy].
  now destruct (truthy (opt_field (opt_item (field (data ctx) "detail") 0) "loc")).
Qed.

Lemma classify_fastapi_throws (ctx : Ctx) (r : Response) :
  is_fastapi_status (status r) = true ->
  nullish (data ctx) = true ->
  classify ctx r = inl TypeError.
Proof.
  unfold is_fastapi_status, classify. intros Hs Hn. rewrite Hs.
  rewrite messageResponse_value. cbn [bind ret Monad_either].
  rewrite (getProp_nullish _ _ Hn). reflexivity.
Qed.

Lemma classify_not_found (ctx : Ctx) (r : Response) :
  status r = 404 ->
  classify ctx r
  = inr [("message",
          first_truthy [extracted_message ctx] (VStr "Entity Not Found"));
         ("type", VStr "notFound");
         ("location", opt_field (opt_field (data ctx) "detail") "id")].
Proof.
  unfold classify. intros Hs. rewrite Hs. cbn [Z.eqb Pos.eqb orb].
  rewrite message_or_default. js_reads. reflexivity.
Qed.

Lemma classify_internal (ctx : Ctx) (r : Response) :
  status r = 500 ->
  classify ctx r
  = inr [("errorCode", VNum 500);
         ("message",
          first_truthy [extracted_message ctx]
            (VStr "Internal Server Error. The server unable to complete your request"));
         ("type", VStr "serverError")].
Proof.
  unfold classify. intros Hs. rewrite Hs. cbn [Z.eqb Pos.eqb orb].
  rewrite message_or_default. reflexivity.
Qed.

Lemma classify_others (ctx : Ctx) (r : Response) :
  mapped_status (status r) = false ->
  classify ctx r
  = inr [("message",
          first_truthy [extracted_message ctx] (VStr "Miscellaneous Error"));
         ("type", VStr "others")].
Proof.
  unfold mapped_status, classify. intros Hs.
  repeat (apply orb_false_elim in Hs; destruct Hs as [Hs ?]).
  repeat match goal with H : (_ =? _) = false |- _ => rewrite H; clear H end.
  cbn [orb]. rewrite message_or_default. reflexivity.
Qed.

(** Outside the validation branch the object literal always has a
    truthy message; in it, whenever there is a body to read. *)
Lemma classify_total (ctx : Ctx) (r : Response) :
  response ctx = Some r ->
  (is_fastapi_status (status r) = true -> nullish (data ctx) = false) ->
  exists e, classify ctx r = inr e
            /\ (is_fastapi_status (status r) = false ->
                truthy (lookup "message" e) = true).
Proof.
  intros Hr Hbody. unfold is_fastapi_status in *.
  destruct ((status r =? 422) || (status r =? 400)) eqn:Hs.
  - eexists. split; [apply classify_fastapi; auto | discriminate].
  - unfold classify. rewrite Hs.
    repeat match goal with
           | |- context [if ?c then _ else _] => destruct c
           end;
      rewrite message_or_default; js_reads;
      eexists; (split; [reflexivity|]); intros _;
      cbn [lookup String.eqb Ascii.eqb Bool.eqb];
      now apply first_truthy_truthy.
Qed.

End Hook.

Section HookResult.

Lemma onFetchError_with_response (ctx : Ctx) (r : Response) (e : Fields) :
  response ctx = Some r ->
  classify ctx r = inr e ->
  onFetchError ctx
  = inr (set_error ctx
           (VObj (set_field "endpoint" (VStr (url r))
                    (set_field "raw" (data ctx)
                       (set_field "errorCode" (VNum (status r)) e))))).
Proof.
  intros Hr He. unfold onFetchError. rewrite Hr, He. reflexivity.
Qed.

Lemma onFetchError_throws (ctx : Ctx) (r : Response) :
  response ctx = Some r ->
  classify ctx r = inl TypeError ->
  onFetchError ctx = inl TypeError.
Proof.
  intros Hr He. unfold onFetchError. rewrite Hr, He. reflexivity.
Qed.

Lemma onFetchError_without_response (ctx : Ctx) :
  response ctx = None ->
  onFetchError ctx
  = inr (set_error ctx
           (VObj [("errorCode", VNum 500);
                  ("message", VStr "Failed to load response data | Unknown Error");
                  ("type", VStr "unknown")])).
Proof. intros Hr. unfold onFetchError. now rewrite Hr. Qed.

(** The three trailing assignments, read back. *)
Lemma trailing_fields (s : Z) (body : JsVal) (u : string) (e : Fields) :
  let e' := set_field "endpoint" (VStr u)
              (set_field "raw" body (set_field "errorCode" (VNum s) e)) in
  lookup "errorCode" e' = VNum s
  /\ lookup "raw" e' = body
  /\ lookup "endpoint" e' = VStr u
  /\ has_key "errorCode" e' = true
  /\ has_key "endpoint" e' = true.
Proof.
  unfold set_field. cbv zeta. repeat split.
  - rewrite !lookup_assign_other by discriminate. apply lookup_assign_same.
  - rewrite lookup_assign_other by discriminate. apply lookup_assign_same.
  - apply lookup_assign_same.
  - rewrite !has_key_assign_other by discriminate. apply has_key_assign_same.
  - apply has_key_assign_same.
Qed.

(** They leave the other properties of the literal alone. *)
Lemma trailing_fields_keep (k : string) (s : Z) (body : JsVal) (u : string)
      (e : Fields) :
  k <> "errorCode" -> k <> "raw" -> k <> "endpoint" ->
  lookup k (set_field "endpoint" (VStr u)
              (set_field "raw" body (set_field "errorCode" (VNum s) e)))
  = lookup k e.
Proof.
  intros H1 H2 H3. unfold set_field.
  now rewrite !lookup_assign_other by assumption.
Qed.

End HookResult.

(** Strings: the empty suffix. *)
Lemma append_empty (s : string) : (s ++ "")%string = s.
Proof. induction s as [|c s IH]; simpl; [reflexivity | now rewrite IH]. Qed.

(** In development mode the hook does add the headers: the Gitlab token
    when it is set, and the bearer token last. *)
Lemma beforeFetch_development_bearer (env : Env) (options : FetchOptions)
      (token : string) :
  MODE env = "development" ->
  VITE_BASF_FEDERATION_ACCESS_TOKEN env = Some token ->
  token <> "" ->
  header (beforeFetch env options) "Authorization"
  = Some (VStr ("Bearer " ++ token)).
Proof.
  intros Hm Ht Hne. unfold beforeFetch. rewrite Hm, Ht. cbn [String.eqb Ascii.eqb Bool.eqb env_truthy env_value].
  destruct (String.eqb_spec token ""); [contradiction|]. cbn [negb].
  unfold header, assign_header. cbn [headers].
  now rewrite has_key_assign_same, lookup_assign_same.
Qed.

Lemma beforeFetch_development_gitlab (env : Env) (options : FetchOptions)
      (token : string) :
  MODE env = "development" ->
  VITE_BASF_GITLAB_TOKEN env = Some token ->
  token <> "" ->
  header (beforeFetch env options) "X-Gitlab-Token" = Some (VStr token).
Proof.
  intros Hm Ht Hne. unfold beforeFetch. rewrite Hm, Ht. cbn [String.eqb Ascii.eqb Bool.eqb env_truthy env_value].
  destruct (String.eqb_spec token ""); [contradiction|]. cbn [negb].
  destruct (env_truthy (VITE_BASF_FEDERATION_ACCESS_TOKEN env));
    unfold header, assign_header; cbn [headers].
  - rewrite has_key_assign_other, lookup_assign_other by discriminate.
    now rewrite has_key_assign_same, lookup_assign_same.
  - now rewrite has_key_assign_same, lookup_assign_same.
Qed.

(* ===================================================================== *)
(** ** The toggleable text *)
(* ===================================================================== *)

(** Whatever was done before, a run of calls that ends with [reset]
    leaves the default. *)
Lemma calls_ending_in_reset (cs : list N3EG.Call) (s : N3EG.Store) :
  N3EG.text (execState (N3EG.calls (cs ++ [N3EG.CallReset])) s) = "N3EG".
Proof.
  revert s. induction cs as [|c cs IH]; intros s.
  - reflexivity.
  - destruct c; apply IH.
Qed.

(** C9. The text starts as ["N3EG"]; [edit(v)] sets it to [v] whatever it
    held; and [edit(v)] followed by [reset()] leaves it equal to
    ["N3EG"], for every string [v] and every earlier state. *)
Theorem C9_edit_then_reset :
  N3EG.text N3EG.init = "N3EG"
  /\ (forall (v : string) (s : N3EG.Store),
         N3EG.text (execState (N3EG.edit v) s) = v)
  /\ (forall (v : string) (s : N3EG.Store),
         N3EG.text (execState (N3EG.edit v ;; N3EG.reset) s) = "N3EG").
Proof. repeat split. Qed.

(* ===================================================================== *)
(** ** The pre-request hook *)
(* ===================================================================== *)

(** C6. Outside development mode the pre-request hook hands the options
    back as they came: no [X-Gitlab-Token] and no [Authorization] header
    is added, and the outgoing options are the same for any two
    non-development environments, whatever tokens they hold. *)
Theorem C6_no_token_headers_outside_development
        (env env' : Env) (options : FetchOptions) :
  MODE env <> "development" ->
  MODE env' <> "development" ->
  beforeFetch env options = options
  /\ beforeFetch env options = beforeFetch env' options
  /\ header (beforeFetch env options) "X-Gitlab-Token"
     = header options "X-Gitlab-Token"
  /\ header (beforeFetch env options) "Authorization"
     = header options "Authorization".
Proof.
  intros Hm Hm'.
  assert (Hid : forall e, MODE e <> "development" -> beforeFetch e options = options).
  { intros e He. unfold beforeFetch.
    destruct (String.eqb_spec (MODE e) "development"); [contradiction | reflexivity]. }
  rewrite (Hid env Hm), (Hid env' Hm'). repeat split.
Qed.

Lemma C6_witness :
  beforeFetch production_with_tokens json_options = json_options
  /\ beforeFetch production_with_tokens json_options
     = beforeFetch test_without_tokens json_options
  /\ header (beforeFetch production_with_tokens json_options) "X-Gitlab-Token"
     = header json_options "X-Gitlab-Token"
  /\ header (beforeFetch production_with_tokens json_options) "Authorization"
     = header json_options "Authorization".
Proof.
  apply (C6_no_token_headers_outside_development
           production_with_tokens test_without_tokens json_options);
    discriminate.
Defined.

(* ===================================================================== *)
(** ** The GET helper *)
(* ===================================================================== *)

Lemma append_same_empty (s t : string) : (s ++ t)%string = s -> t = "".
Proof.
  induction s as [|c s IH]; simpl; intros H; [assumption|].
  injection H as H. auto.
Qed.

(** An array of strings prints as its elements joined by commas. *)
Lemma ToString_strings (NumberToString : Z -> string) (l : list string) :
  ToString NumberToString (VArr (map VStr l)) = String.concat "," l.
Proof.
  cbn [ToString]. induction l as [|x l IH]; [reflexivity|].
  destruct l as [|y l]; [reflexivity|].
  cbn [map String.concat] in *. now rewrite IH.
Qed.

(** C7, as the claim states it, fails at two kinds of query.  The empty
    array is a non-object value and prints as the empty string, yet the
    ['?'] is appended; and [0], a non-object value that is not absent,
    is not passed through but dropped. *)
Lemma C7_empty_array_and_zero_queries :
  useGet_url plain_object (constant_serializer "") string_of_Z
    (Plain "/api/items") (Plain (VArr []))
  = "/api/items?"
  /\ useGet_url plain_object (constant_serializer "") string_of_Z
       (Plain "/api/items") (Plain (VNum 0))
     = "/api/items".
Proof. split; reflexivity. Qed.

(** C7, amended. The URL the GET helper requests, for every URL and
    every query.  An object query: the URL, then ['?'] and the serialised
    query, unless the serialisation is empty.  A truthy non-object
    query: the URL, ['?'] and the value as the template literal prints
    it, a string as it is, [true] as ["true"], a number as the engine
    prints it, an array of strings joined by commas, and so a bare ['?']
    for a value that prints as the empty string, such as [[]].  A
    non-object query that is absent or otherwise falsy ([undefined],
    [null], [false], [0], the empty string): the URL alone.  Nothing is
    appended exactly when the query string is the empty string. *)
Theorem C7_useGet_url_by_query
        (isObject : JsVal -> bool) (stringifyQuery : JsVal -> string)
        (NumberToString : Z -> string)
        (url : MaybeRef string) (query : MaybeRef JsVal) :
  (isObject (unref query) = true ->
     useGet_url isObject stringifyQuery NumberToString url query
     = (unref url
        ++ (if String.eqb (stringifyQuery (unref query)) "" then ""
            else "?" ++ stringifyQuery (unref query)))%string)
  /\ (isObject (unref query) = false -> truthy (unref query) = true ->
        queryString isObject stringifyQuery (unref query) = unref query
        /\ useGet_url isObject stringifyQuery NumberToString url query
           = (unref url ++ "?" ++ ToString NumberToString (unref query))%string)
  /\ (isObject (unref query) = false ->
        (forall s, unref query = VStr s ->
           useGet_url isObject stringifyQuery NumberToString url query
           = (unref url ++ (if String.eqb s "" then "" else "?" ++ s))%string)
        /\ (unref query = VBool true ->
              useGet_url isObject stringifyQuery NumberToString url query
              = (unref url ++ "?true")%string)
        /\ (forall z, unref query = VNum z -> z <> 0 ->
              useGet_url isObject stringifyQuery NumberToString url query
              = (unref url ++ "?" ++ NumberToString z)%string)
        /\ (forall l, unref query = VArr (map VStr l) ->
              useGet_url isObject stringifyQuery NumberToString url query
              = (unref url ++ "?" ++ String.concat "," l)%string))
  /\ (isObject (unref query) = false -> truthy (unref query) = false ->
        queryString isObject stringifyQuery (unref query) = VStr ""
        /\ useGet_url isObject stringifyQuery NumberToString url query
           = unref url)
  /\ (useGet_url isObject stringifyQuery NumberToString url query = unref url
      <-> queryString isObject stringifyQuery (unref query) = VStr "").
Proof.
  unfold useGet_url, queryString.
  destruct (isObject (unref query)) eqn:Hobj.
  - split; [|split; [|split; [|split]]]; try discriminate.
    + intros _. cbn [truthy ToString].
      destruct (String.eqb_spec (stringifyQuery (unref query)) "") as [->|];
        reflexivity.
    + cbn [truthy ToString]. split.
      * intros H.
        destruct (String.eqb_spec (stringifyQuery (unref query)) "") as [->|Hne];
          [reflexivity|].
        cbn [negb] in H. apply append_same_empty in H. discriminate.
      * intros H. injection H as H. rewrite H. cbn. apply append_empty.
  - destruct (truthy (unref query)) eqn:Hq; cbv iota; rewrite ?Hq; cbv iota.
    + split; [discriminate|]. split; [intros _ _; split; reflexivity|].
      split; [|split; [discriminate|]].
      * intros _. split; [|split; [|split]].
        -- intros s Hs. rewrite Hs in *. cbn [truthy ToString] in *.
           destruct (String.eqb s ""); [discriminate | reflexivity].
        -- intros Hs. rewrite Hs. reflexivity.
        -- intros z Hs _. rewrite Hs. reflexivity.
        -- intros l Hs. rewrite Hs. now rewrite ToString_strings.
      * split.
        -- intros H. apply append_same_empty in H. discriminate.
        -- intros H. rewrite H in Hq. discriminate.
    + split; [discriminate|]. split; [discriminate|].
      split; [|split].
      * intros _. split; [|split; [|split]].
        -- intros s Hs. rewrite Hs in Hq. cbn [truthy] in Hq.
           destruct (String.eqb s ""); [|discriminate].
           reflexivity.
        -- intros Hs. rewrite Hs in Hq. discriminate.
        -- intros z Hs Hz. rewrite Hs in Hq. cbn [truthy] in Hq.
           destruct (Z.eqb_spec z 0); [contradiction | discriminate].
        -- intros l Hs. rewrite Hs in Hq. discriminate.
      * intros _ _. split; [reflexivity|]. cbn. apply append_empty.
      * split; [reflexivity|]. intros _. cbn. apply append_empty.
Qed.

Lemma C7_witness :
  useGet_url plain_object (constant_serializer "a=1&b=x") string_of_Z
    (Plain "/api/items") (Plain (VObj [("a", VNum 1); ("b", VStr "x")]))
  = "/api/items?a=1&b=x"
  /\ useGet_url plain_object (constant_serializer "") string_of_Z
       (Ref "/api/items") (Ref (VStr "page=2"))
     = "/api/items?page=2"
  /\ useGet_url plain_object (constant_serializer "") string_of_Z
       (Plain "/api/items") (Plain (VNum 5))
     = "/api/items?5"
  /\ useGet_url plain_object (constant_serializer "") string_of_Z
       (Plain "/api/items") (Plain (VArr [VStr "a"; VStr "b"]))
     = "/api/items?a,b"
  /\ useGet_url plain_object (constant_serializer "") string_of_Z
       (Plain "/api/items") (Plain VUndef)
     = "/api/items"
  /\ useGet_url plain_object (constant_serializer "") string_of_Z
       (Plain "/api/items") (Plain (VObj []))
     = "/api/items".
Proof.
  split; [|split; [|split; [|split; [|split]]]].
  - destruct (C7_useGet_url_by_query plain_object
                (constant_serializer "a=1&b=x") string_of_Z
                (Plain "/api/items")
                (Plain (VObj [("a", VNum 1); ("b", VStr "x")])))
      as [H _].
    exact (H eq_refl).
  - destruct (C7_useGet_url_by_query plain_object (constant_serializer "")
                string_of_Z (Ref "/api/items") (Ref (VStr "page=2")))
      as [_ [_ [H _]]].
    exact (proj1 (H eq_refl) "page=2" eq_refl).
  - destruct (C7_useGet_url_by_query plain_object (constant_serializer "")
                string_of_Z (Plain "/api/items") (Plain (VNum 5)))
      as [_ [_ [H _]]].
    refine (proj1 (proj2 (proj2 (H eq_refl))) 5 eq_refl _). discriminate.
  - destruct (C7_useGet_url_by_query plain_object (constant_serializer "")
                string_of_Z (Plain "/api/items")
                (Plain (VArr [VStr "a"; VStr "b"])))
      as [_ [_ [H _]]].
    exact (proj2 (proj2 (proj2 (H eq_refl))) ["a"; "b"] eq_refl).
  - destruct (C7_useGet_url_by_query plain_object (constant_serializer "")
                string_of_Z (Plain "/api/items") (Plain VUndef))
      as [_ [_ [_ [H _]]]].
    exact (proj2 (H eq_refl eq_refl)).
  - destruct (C7_useGet_url_by_query plain_object (constant_serializer "")
                string_of_Z (Plain "/api/items") (Plain (VObj [])))
      as [_ [_ [_ [_ H]]]].
    exact (proj2 H eq_refl).
Defined.

(* ===================================================================== *)
(** ** The post-error hook *)
(* ===================================================================== *)

(** C4. A failed request without a response object ends with exactly
    [{errorCode: 500, message: "Failed to load response data | Unknown
    Error", type: "unknown"}] as its error: these three properties and no
    other. *)
Theorem C4_no_response_exact_error (ctx : Ctx) :
  response ctx = None ->
  exists ctx',
    onFetchError ctx = inr ctx'
    /\ error ctx'
       = VObj [("errorCode", VNum 500);
               ("message", VStr "Failed to load response data | Unknown Error");
               ("type", VStr "unknown")]
    /\ data ctx' = data ctx
    /\ response ctx' = None.
Proof.
  intros Hr. eexists. split; [now apply onFetchError_without_response|].
  cbn. auto.
Qed.

Lemma C4_witness :
  exists ctx',
    onFetchError (without_response VNull (VStr "Failed to fetch")) = inr ctx'
    /\ error ctx'
       = VObj [("errorCode", VNum 500);
               ("message", VStr "Failed to load response data | Unknown Error");
               ("type", VStr "unknown")]
    /\ data ctx' = VNull
    /\ response ctx' = None.
Proof.
  exact (C4_no_response_exact_error
           (without_response VNull (VStr "Failed to fetch")) eq_refl).
Defined.

(** C1, as the claim states it, fails without a response: the error
    object then has no [endpoint] at all, and its [errorCode] is the
    literal 500, there being no response status to copy. *)
Lemma C1_no_response_has_no_endpoint :
  onFetchError (without_response VNull (VStr "Failed to fetch"))
  = inr (without_response VNull
           (VObj [("errorCode", VNum 500);
                  ("message", VStr "Failed to load response data | Unknown Error");
                  ("type", VStr "unknown")]))
  /\ error_has
       (without_response VNull
          (VObj [("errorCode", VNum 500);
                 ("message", VStr "Failed to load response data | Unknown Error");
                 ("type", VStr "unknown")]))
       "endpoint" = false.
Proof. split; reflexivity. Qed.

(** C1, amended. Every failed request whose hook reads a body it has
    (with status 400 or 422 the body is not [null] or [undefined]) ends
    with one error object whose [errorCode] is populated: the response
    status when there is a response, 500 when there is none.  Its
    [endpoint] is populated with the response URL when there is a
    response, and is left out when there is none. *)
Theorem C1_error_code_and_endpoint (ctx : Ctx) :
  (forall r, response ctx = Some r ->
             is_fastapi_status (status r) = true ->
             nullish (data ctx) = false) ->
  exists ctx',
    onFetchError ctx = inr ctx'
    /\ error_has ctx' "errorCode" = true
    /\ error_field ctx' "errorCode"
       = VNum (match response ctx with Some r => status r | None => 500 end)
    /\ error_has ctx' "endpoint"
       = (match response ctx with Some _ => true | None => false end)
    /\ error_field ctx' "endpoint"
       = (match response ctx with Some r => VStr (url r) | None => VUndef end).
Proof.
  intros Hbody. destruct (response ctx) as [r|] eqn:Hr.
  - destruct (classify_total ctx r Hr (Hbody r eq_refl)) as [e [He _]].
    eexists. split; [apply (onFetchError_with_response ctx r e Hr He)|].
    unfold error_has, error_field. cbn [error set_error].
    destruct (trailing_fields (status r) (data ctx) (url r) e)
      as [Hc [_ [Hu [Hhc Hhu]]]].
    auto.
  - eexists. split; [now apply onFetchError_without_response|].
    repeat split.
Qed.

Lemma C1_witness :
  exists ctx',
    onFetchError
      (with_response field_required_body 422 "https://api.example.org/items")
    = inr ctx'
    /\ error_has ctx' "errorCode" = true
    /\ error_field ctx' "errorCode" = VNum 422
    /\ error_has ctx' "endpoint" = true
    /\ error_field ctx' "endpoint" = VStr "https://api.example.org/items".
Proof.
  apply (C1_error_code_and_endpoint
           (with_response field_required_body 422
              "https://api.example.org/items")).
  intros r Hr Hs. reflexivity.
Defined.

(** C2, as the claim states it, fails: with status 500 and body [{}] the
    message is the body [{}] itself, not the fallback string.  Message
    extraction ends in the raw body, and an object is truthy. *)
Lemma C2_empty_object_body_is_the_message :
  exists ctx',
    onFetchError (with_response (VObj []) 500 "/items") = inr ctx'
    /\ error_field ctx' "message" = VObj []
    /\ error_field ctx' "message"
       <> VStr "Internal Server Error. The server unable to complete your request".
Proof.
  eexists. split; [reflexivity|]. split; [reflexivity | discriminate].
Qed.

(** C2, amended. With status 500 the error has type ["serverError"] and
    errorCode 500.  With body [{}] its message is the raw body [{}]; with
    any truthy body it is the extracted message; the message is the
    fallback string ["Internal Server Error. The server unable to
    complete your request"] when the body is absent or otherwise
    falsy. *)
Theorem C2_internal_server_error (ctx : Ctx) (r : Response) :
  response ctx = Some r ->
  status r = 500 ->
  exists ctx',
    onFetchError ctx = inr ctx'
    /\ error_field ctx' "type" = VStr "serverError"
    /\ error_field ctx' "errorCode" = VNum 500
    /\ (data ctx = VObj [] -> error_field ctx' "message" = VObj [])
    /\ (truthy (data ctx) = true ->
        error_field ctx' "message" = extracted_message ctx)
    /\ (truthy (data ctx) = false ->
        error_field ctx' "message"
        = VStr "Internal Server Error. The server unable to complete your request").
Proof.
  intros Hr Hs. eexists.
  split; [apply (onFetchError_with_response ctx r _ Hr (classify_internal ctx r Hs))|].
  unfold error_field. cbn [error set_error].
  rewrite !trailing_fields_keep by discriminate.
  destruct (trailing_fields (status r) (data ctx) (url r)
              [("errorCode", VNum 500);
               ("message",
                first_truthy [extracted_message ctx]
                  (VStr "Internal Server Error. The server unable to complete your request"));
               ("type", VStr "serverError")]) as [Hc _].
  rewrite Hc, Hs. cbn [lookup String.eqb Ascii.eqb Bool.eqb first_truthy].
  repeat split.
  - intros Hd. unfold extracted_message. rewrite Hr, Hd. reflexivity.
  - intros Hd. now rewrite (extracted_message_truthy ctx r Hr Hd).
  - intros Hd. now rewrite (extracted_message_absent ctx Hd).
Qed.

Lemma C2_witness :
  exists ctx',
    onFetchError (with_response VNull 500 "/items") = inr ctx'
    /\ error_field ctx' "type" = VStr "serverError"
    /\ error_field ctx' "errorCode" = VNum 500
    /\ error_field ctx' "message"
       = VStr "Internal Server Error. The server unable to complete your request".
Proof.
  destruct (C2_internal_server_error (with_response VNull 500 "/items")
              {| status := 500; url := "/items" |} eq_refl eq_refl)
    as [ctx' [Hrun [Htype [Hcode [_ [_ Hdefault]]]]]].
  exists ctx'. repeat (split; [assumption|]). exact (Hdefault eq_refl).
Defined.

(** C3, as the claim states it, fails: with status 404 and body [{}] the
    message is the body [{}] itself, not ["Entity Not Found"]. *)
Lemma C3_empty_object_body_is_the_message :
  exists ctx',
    onFetchError (with_response (VObj []) 404 "/items/7") = inr ctx'
    /\ error_field ctx' "message" = VObj []
    /\ error_field ctx' "message" <> VStr "Entity Not Found".
Proof.
  eexists. split; [reflexivity|]. split; [reflexivity | discriminate].
Qed.

(** C3, amended. With status 404 the error has type ["notFound"],
    errorCode 404 and location [data?.detail?.id].  With body [{}] its
    message is the raw body [{}]; with any truthy body it is the
    extracted message; the message is ["Entity Not Found"] when the body
    is absent or otherwise falsy. *)
Theorem C3_not_found (ctx : Ctx) (r : Response) :
  response ctx = Some r ->
  status r = 404 ->
  exists ctx',
    onFetchError ctx = inr ctx'
    /\ error_field ctx' "type" = VStr "notFound"
    /\ error_field ctx' "errorCode" = VNum 404
    /\ error_field ctx' "location"
       = opt_field (opt_field (data ctx) "detail") "id"
    /\ (data ctx = VObj [] -> error_field ctx' "message" = VObj [])
    /\ (truthy (data ctx) = true ->
        error_field ctx' "message" = extracted_message ctx)
    /\ (truthy (data ctx) = false ->
        error_field ctx' "message" = VStr "Entity Not Found").
Proof.
  intros Hr Hs. eexists.
  split; [apply (onFetchError_with_response ctx r _ Hr (classify_not_found ctx r Hs))|].
  unfold error_field. cbn [error set_error].
  rewrite !trailing_fields_keep by discriminate.
  destruct (trailing_fields (status r) (data ctx) (url r)
              [("message",
                first_truthy [extracted_message ctx] (VStr "Entity Not Found"));
               ("type", VStr "notFound");
               ("location", opt_field (opt_field (data ctx) "detail") "id")])
    as [Hc _].
  rewrite Hc, Hs. cbn [lookup String.eqb Ascii.eqb Bool.eqb first_truthy].
  repeat split.
  - intros Hd. unfold extracted_message. rewrite Hr, Hd. reflexivity.
  - intros Hd. now rewrite (extracted_message_truthy ctx r Hr Hd).
  - intros Hd. now rewrite (extracted_message_absent ctx Hd).
Qed.

Lemma C3_witness :
  exists ctx',
    onFetchError (with_response VNull 404 "/items/7") = inr ctx'
    /\ error_field ctx' "type" = VStr "notFound"
    /\ error_field ctx' "errorCode" = VNum 404
    /\ error_field ctx' "message" = VStr "Entity Not Found".
Proof.
  destruct (C3_not_found (with_response VNull 404 "/items/7")
              {| status := 404; url := "/items/7" |} eq_refl eq_refl)
    as [ctx' [Hrun [Htype [Hcode [_ [_ [_ Hdefault]]]]]]].
  exists ctx'. repeat (split; [assumption|]). exact (Hdefault eq_refl).
Defined.

(** The validation branch on a body the hook can read: type, message,
    location and code as the specification lists them. *)
Lemma fastapi_error_with_body (ctx : Ctx) (r : Response) :
  response ctx = Some r ->
  is_fastapi_status (status r) = true ->
  nullish (data ctx) = false ->
  exists ctx',
    onFetchError ctx = inr ctx'
    /\ error_field ctx' "type" = VStr "fastapiError"
    /\ error_field ctx' "message" = extracted_message ctx
    /\ error_field ctx' "location" = first_loc (data ctx)
    /\ error_field ctx' "errorCode" = VNum (status r).
Proof.
  intros Hr Hs Hn. eexists.
  split; [apply (onFetchError_with_response ctx r _ Hr
                   (classify_fastapi ctx r Hs Hn))|].
  unfold error_field. cbn [error set_error].
  rewrite !trailing_fields_keep by discriminate.
  destruct (trailing_fields (status r) (data ctx) (url r)
              [("message", extracted_message ctx);
               ("type", VStr "fastapiError");
               ("location", first_loc (data ctx))]) as [Hc _].
  rewrite Hc. repeat split.
Qed.

(** The location is the first entry's [loc] when that is a path (an
    array), and [null] when there is none. *)
Lemma first_loc_path (body : JsVal) (path : list JsVal) :
  opt_field (opt_item (field body "detail") 0) "loc" = VArr path ->
  first_loc body = VArr path.
Proof. intros H. unfold first_loc. cbn [first_truthy]. now rewrite H. Qed.

Lemma first_loc_missing (body : JsVal) :
  opt_field (opt_item (field body "detail") 0) "loc" = VUndef ->
  first_loc body = VNull.
Proof. intros H. unfold first_loc. cbn [first_truthy]. now rewrite H. Qed.

(** The example of the specification: status 422 with one validation
    error. *)
Lemma fastapi_field_required :
  onFetchError (with_response field_required_body 422 "/items")
  = inr {| data := field_required_body;
           error := VObj [("message", VStr "field required");
                          ("type", VStr "fastapiError");
                          ("location", VArr [VStr "body"; VStr "name"]);
                          ("errorCode", VNum 422);
                          ("raw", field_required_body);
                          ("endpoint", VStr "/items")];
           response := Some {| status := 422; url := "/items" |} |}.
Proof. reflexivity. Qed.

(** C5. With status 422 or 400 the location is meant to be the first
    validation error's [loc], else [null].  On a response without a
    decoded body ([data] is [null] or [undefined]) the hook does not get
    that far: line 85 reads [ctx.data.detail] unguarded and throws a
    [TypeError], where the 404 branch reads [ctx.data?.detail]. *)
Theorem C5_fastapi_absent_body_throws (ctx : Ctx) (r : Response) :
  response ctx = Some r ->
  is_fastapi_status (status r) = true ->
  nullish (data ctx) = true ->
  onFetchError ctx = inl TypeError.
Proof.
  intros Hr Hs Hn.
  exact (onFetchError_throws ctx r Hr (classify_fastapi_throws ctx r Hs Hn)).
Qed.

Lemma C5_witness :
  onFetchError (with_response VNull 422 "/items") = inl TypeError.
Proof.
  exact (C5_fastapi_absent_body_throws (with_response VNull 422 "/items")
           {| status := 422; url := "/items" |} eq_refl eq_refl eq_refl).
Defined.

(** C8. Without a truthy [detail], message extraction yields the body's
    [message], else its [msg], else the raw body; and a response with an
    unmapped status ends with type ["others"], that message and the
    status as errorCode.  At status 418 and body [{msg: "teapot"}]: type
    ["others"], message ["teapot"], errorCode 418. *)
Theorem C8_others_message_fallback (ctx : Ctx) (r : Response) :
  response ctx = Some r ->
  truthy (data ctx) = true ->
  truthy (field (data ctx) "detail") = false ->
  messageResponse ctx
  = inr (first_truthy [field (data ctx) "message"; field (data ctx) "msg"]
           (data ctx))
  /\ (mapped_status (status r) = false ->
      exists ctx',
        onFetchError ctx = inr ctx'
        /\ error_field ctx' "type" = VStr "others"
        /\ error_field ctx' "message"
           = first_truthy [field (data ctx) "message"; field (data ctx) "msg"]
               (data ctx)
        /\ error_field ctx' "errorCode" = VNum (status r)).
Proof.
  intros Hr Hd Hdet.
  assert (Hm : extracted_message ctx
               = first_truthy [field (data ctx) "message"; field (data ctx) "msg"]
                   (data ctx)).
  { unfold extracted_message. rewrite Hr, Hd. cbv zeta. now rewrite Hdet. }
  split.
  - now rewrite messageResponse_value, Hm.
  - intros Hs. eexists.
    split; [apply (onFetchError_with_response ctx r _ Hr (classify_others ctx r Hs))|].
    unfold error_field. cbn [error set_error].
    rewrite !trailing_fields_keep by discriminate.
    destruct (trailing_fields (status r) (data ctx) (url r)
                [("message",
                  first_truthy [extracted_message ctx] (VStr "Miscellaneous Error"));
                 ("type", VStr "others")]) as [Hc _].
    rewrite Hc. cbn [lookup String.eqb Ascii.eqb Bool.eqb first_truthy].
    rewrite (extracted_message_truthy ctx r Hr Hd). auto.
Qed.

Lemma C8_witness :
  messageResponse (with_response (VObj [("msg", VStr "teapot")]) 418 "/brew")
  = inr (VStr "teapot")
  /\ exists ctx',
      onFetchError (with_response (VObj [("msg", VStr "teapot")]) 418 "/brew")
      = inr ctx'
      /\ error_field ctx' "type" = VStr "others"
      /\ error_field ctx' "message" = VStr "teapot"
      /\ error_field ctx' "errorCode" = VNum 418.
Proof.
  destruct (C8_others_message_fallback
              (with_response (VObj [("msg", VStr "teapot")]) 418 "/brew")
              {| status := 418; url := "/brew" |} eq_refl eq_refl eq_refl)
    as [Hm Hother].
  split; [exact Hm | exact (Hother eq_refl)].
Defined.





(* ===================================================================== *)
(** ** Further properties of the pre-request hook *)
(* ===================================================================== *)

Lemma assign_present (k : string) (v : JsVal) (fs : Fields) :
  has_key k fs = true -> lookup k fs = v -> assign k v fs = fs.
Proof.
  unfold has_key. induction fs as [|[k' v'] fs IH]; simpl; [discriminate|].
  destruct (String.eqb k' k); simpl.
  - intros _ ->. reflexivity.
  - intros Hk Hv. now rewrite IH.
Qed.

Lemma header_assign_other (o : FetchOptions) (k key value : string) :
  k <> key -> header (assign_header o key value) k = header o k.
Proof.
  intros Hne. unfold header, assign_header. cbn [headers].
  rewrite has_key_assign_other, lookup_assign_other by assumption.
  destruct (headers o) as [h|]; reflexivity.
Qed.

Lemma header_assign_same (o : FetchOptions) (key value : string) :
  header (assign_header o key value) key = Some (VStr value).
Proof.
  unfold header, assign_header. cbn [headers].
  now rewrite has_key_assign_same, lookup_assign_same.
Qed.

Lemma assign_header_present (o : FetchOptions) (key value : string) :
  header o key = Some (VStr value) ->
  assign_header o key value
  = {| headers := headers o; others := others o |}.
Proof.
  unfold header, assign_header. destruct (headers o) as [h|]; [|discriminate].
  destruct (has_key key h) eqn:Hk; [|discriminate].
  intros Hv. injection Hv as Hv. now rewrite assign_present.
Qed.

(** The hook leaves every other header and every other option alone, in
    every mode: only [X-Gitlab-Token] and [Authorization] can change. *)
Theorem beforeFetch_keeps_other_headers
        (env : Env) (options : FetchOptions) (k : string) :
  k <> "X-Gitlab-Token" ->
  k <> "Authorization" ->
  header (beforeFetch env options) k = header options k
  /\ others (beforeFetch env options) = others options.
Proof.
  intros Hg Ha. unfold beforeFetch.
  destruct (String.eqb (MODE env) "development"); [|split; reflexivity].
  destruct (env_truthy (VITE_BASF_GITLAB_TOKEN env));
    destruct (env_truthy (VITE_BASF_FEDERATION_ACCESS_TOKEN env));
    rewrite ?header_assign_other by assumption; split; reflexivity.
Qed.

Lemma beforeFetch_keeps_other_headers_witness :
  header (beforeFetch development_with_tokens json_options) "Content-Type"
  = Some (VStr "application/json")
  /\ others (beforeFetch development_with_tokens json_options)
     = [("mode", VStr "cors")].
Proof.
  apply (beforeFetch_keeps_other_headers development_with_tokens json_options
           "Content-Type"); discriminate.
Defined.

(** The two additions are independent: a token that is unset, or set to
    the empty string, leaves its own header as the caller had it,
    whatever the mode and the other token. *)
Theorem beforeFetch_unset_token_leaves_header
        (env : Env) (options : FetchOptions) :
  (env_truthy (VITE_BASF_GITLAB_TOKEN env) = false ->
   header (beforeFetch env options) "X-Gitlab-Token"
   = header options "X-Gitlab-Token")
  /\ (env_truthy (VITE_BASF_FEDERATION_ACCESS_TOKEN env) = false ->
      header (beforeFetch env options) "Authorization"
      = header options "Authorization").
Proof.
  unfold beforeFetch.
  destruct (String.eqb (MODE env) "development"); [|split; reflexivity].
  split; intros H; rewrite H.
  - destruct (env_truthy (VITE_BASF_FEDERATION_ACCESS_TOKEN env));
      rewrite ?header_assign_other by discriminate; reflexivity.
  - destruct (env_truthy (VITE_BASF_GITLAB_TOKEN env));
      rewrite ?header_assign_other by discriminate; reflexivity.
Qed.

Lemma beforeFetch_unset_token_leaves_header_witness :
  header (beforeFetch development_gitlab_only authorized_options) "Authorization"
  = Some (VStr "Basic dXNlcjpwdw==").
Proof.
  exact (proj2 (beforeFetch_unset_token_leaves_header
                  development_gitlab_only authorized_options) eq_refl).
Defined.

(** Running the hook again on its own result changes nothing: a refetch
    does not duplicate or reorder headers. *)
Theorem beforeFetch_idempotent (env : Env) (options : FetchOptions) :
  beforeFetch env (beforeFetch env options) = beforeFetch env options.
Proof.
  unfold beforeFetch.
  destruct (String.eqb (MODE env) "development"); [|reflexivity].
  destruct (env_truthy (VITE_BASF_GITLAB_TOKEN env));
    destruct (env_truthy (VITE_BASF_FEDERATION_ACCESS_TOKEN env));
    try reflexivity.
  - rewrite (assign_header_present
               (assign_header (assign_header options "X-Gitlab-Token" _)
                  "Authorization" _) "X-Gitlab-Token"
               (env_value (VITE_BASF_GITLAB_TOKEN env))).
    + apply assign_header_present.
      unfold header, assign_header. cbn [headers].
      now rewrite has_key_assign_same, lookup_assign_same.
    + rewrite header_assign_other by discriminate. apply header_assign_same.
  - apply assign_header_present, header_assign_same.
  - apply assign_header_present, header_assign_same.
Qed.

Lemma beforeFetch_development_gitlab_witness :
  header (beforeFetch development_with_tokens authorized_options) "X-Gitlab-Token"
  = Some (VStr "glpat-1234").
Proof.
  apply (beforeFetch_development_gitlab development_with_tokens
           authorized_options "glpat-1234"); [reflexivity | reflexivity | discriminate].
Defined.

Lemma beforeFetch_development_bearer_witness :
  header (beforeFetch development_with_tokens authorized_options) "Authorization"
  = Some (VStr "Bearer eyJhbGciOi").
Proof.
  apply (beforeFetch_development_bearer development_with_tokens
           authorized_options "eyJhbGciOi"); [reflexivity | reflexivity | discriminate].
Defined.

(** The backend address is never empty: a non-empty [VITE_BASE_URL] is
    used as it is, and an unset or empty one gives
    ["http://localhost:5000"]. *)
Theorem baseUrl_never_empty (v : option string) :
  String.eqb (baseUrl v) "" = false
  /\ (forall s, v = Some s -> String.eqb s "" = false -> baseUrl v = s)
  /\ (v = None \/ v = Some "" -> baseUrl v = "http://localhost:5000").
Proof.
  unfold baseUrl. split; [|split].
  - destruct v as [s|]; cbn [env_truthy env_value]; [|reflexivity].
    destruct (String.eqb s "") eqn:E; cbn [negb]; auto.
  - intros s -> Hs. cbn [env_truthy env_value]. now rewrite Hs.
  - intros [-> | ->]; reflexivity.
Qed.

Lemma baseUrl_never_empty_witness :
  baseUrl (Some "https://api.example.org") = "https://api.example.org"
  /\ baseUrl (Some "") = "http://localhost:5000".
Proof.
  split.
  - exact (proj1 (proj2 (baseUrl_never_empty (Some "https://api.example.org")))
             "https://api.example.org" eq_refl eq_refl).
  - exact (proj2 (proj2 (baseUrl_never_empty (Some ""))) (or_intror eq_refl)).
Defined.

(* ===================================================================== *)
(** ** Further properties of the post-error hook *)
(* ===================================================================== *)

(** Outside the validation branch: the literal of the branch, read
    property by property. *)
Lemma classify_defaulted (ctx : Ctx) (r : Response) :
  is_fastapi_status (status r) = false ->
  exists e,
    classify ctx r = inr e
    /\ lookup "type" e = VStr (error_type (Some r))
    /\ lookup "message" e
       = first_truthy [extracted_message ctx]
           (VStr (default_message (status r)))
    /\ has_key "message" e = true
    /\ has_key "type" e = true
    /\ has_key "location" e = (status r =? 404)
    /\ has_key "extra" e = false
    /\ has_key "timestamp" e = false.
Proof.
  intros Hs. unfold classify, error_type, default_message.
  rewrite Hs. unfold is_fastapi_status in Hs. rewrite Hs.
  destruct (status r =? 404);
    [| destruct (status r =? 502);
       [| destruct (status r =? 503);
          [| destruct (status r =? 504);
             [| destruct (status r =? 500)]]]];
    rewrite message_or_default; js_reads;
    eexists; (split; [reflexivity|]); repeat split.
Qed.

Lemma classify_fastapi_keys (ctx : Ctx) (r : Response) (e : Fields) :
  is_fastapi_status (status r) = true ->
  classify ctx r = inr e ->
  lookup "type" e = VStr "fastapiError"
  /\ has_key "message" e = true
  /\ has_key "type" e = true
  /\ has_key "location" e = true
  /\ has_key "extra" e = false
  /\ has_key "timestamp" e = false.
Proof.
  intros Hs He. destruct (nullish (data ctx)) eqn:Hn.
  - rewrite (classify_fastapi_throws ctx r Hs Hn) in He. discriminate.
  - rewrite (classify_fastapi ctx r Hs Hn) in He. injection He as <-.
    repeat split.
Qed.

(** The hook's result, when it completes, is the context with a fresh
    error object. *)
Lemma onFetchError_result (ctx ctx' : Ctx) :
  onFetchError ctx = inr ctx' ->
  (response ctx = None
   /\ ctx' = set_error ctx
               (VObj [("errorCode", VNum 500);
                      ("message", VStr "Failed to load response data | Unknown Error");
                      ("type", VStr "unknown")]))
  \/ (exists r e,
         response ctx = Some r
         /\ classify ctx r = inr e
         /\ ctx' = set_error ctx
                     (VObj (set_field "endpoint" (VStr (url r))
                              (set_field "raw" (data ctx)
                                 (set_field "errorCode" (VNum (status r)) e))))).
Proof.
  intros Hrun. destruct (response ctx) as [r|] eqn:Hr.
  - right. destruct (classify ctx r) as [x|e] eqn:He.
    + destruct x. rewrite (onFetchError_throws ctx r Hr He) in Hrun. discriminate.
    + rewrite (onFetchError_with_response ctx r e Hr He) in Hrun.
      injection Hrun as <-. exists r, e. auto.
  - left. rewrite (onFetchError_without_response ctx Hr) in Hrun.
    injection Hrun as <-. auto.
Qed.

(** The hook throws in exactly one situation: a response with status 422
    or 400 whose decoded body is [null] or [undefined].  Every other
    failed request is normalised. *)
Theorem onFetchError_throws_iff (ctx : Ctx) :
  onFetchError ctx = inl TypeError
  <-> exists r, response ctx = Some r
                /\ is_fastapi_status (status r) = true
                /\ nullish (data ctx) = true.
Proof.
  split.
  - intros Hrun. destruct (response ctx) as [r|] eqn:Hr.
    + exists r. split; [reflexivity|].
      destruct (is_fastapi_status (status r)) eqn:Hs.
      * destruct (nullish (data ctx)) eqn:Hn; [auto|].
        destruct (classify_total ctx r Hr (fun _ => Hn)) as [e [He _]].
        rewrite (onFetchError_with_response ctx r e Hr He) in Hrun. discriminate.
      * destruct (classify_defaulted ctx r Hs) as [e [He _]].
        rewrite (onFetchError_with_response ctx r e Hr He) in Hrun. discriminate.
    + rewrite (onFetchError_without_response ctx Hr) in Hrun. discriminate.
  - intros [r [Hr [Hs Hn]]].
    apply (onFetchError_throws ctx r Hr), classify_fastapi_throws; assumption.
Qed.

(** The hook only replaces the error: the decoded body and the response
    of the context are as they were, and with a response the error's
    [raw] is the decoded body itself. *)
Theorem onFetchError_keeps_data_and_response (ctx ctx' : Ctx) :
  onFetchError ctx = inr ctx' ->
  data ctx' = data ctx
  /\ response ctx' = response ctx
  /\ (forall r, response ctx = Some r -> error_field ctx' "raw" = data ctx)
  /\ error_has ctx' "raw"
     = (match response ctx with Some _ => true | None => false end).
Proof.
  intros Hrun.
  destruct (onFetchError_result ctx ctx' Hrun)
    as [[Hr ->] | [r [e [Hr [He ->]]]]]; rewrite Hr;
    unfold error_has, error_field; cbn [data response error set_error].
  - repeat split; congruence.
  - unfold set_field.
    rewrite lookup_assign_other by discriminate.
    rewrite has_key_assign_other by discriminate.
    rewrite lookup_assign_same, has_key_assign_same. auto.
Qed.

Lemma onFetchError_keeps_data_and_response_witness :
  data {| data := not_authenticated_body;
          error := VObj [("message", VStr "Not authenticated");
                         ("type", VStr "others");
                         ("errorCode", VNum 401);
                         ("raw", not_authenticated_body);
                         ("endpoint", VStr "/me")];
          response := Some {| status := 401; url := "/me" |} |}
  = not_authenticated_body.
Proof.
  exact (proj1 (onFetchError_keeps_data_and_response
                  (with_response not_authenticated_body 401 "/me") _ eq_refl)).
Defined.

(** The hook ignores the error it is handed: its outcome, completion or
    throw, is the same whatever [ctx.error] held.  And it is idempotent:
    applied to its own result it returns that result again. *)
Theorem onFetchError_idempotent (ctx : Ctx) :
  (forall e : JsVal, onFetchError (set_error ctx e) = onFetchError ctx)
  /\ (forall ctx', onFetchError ctx = inr ctx' -> onFetchError ctx' = inr ctx').
Proof.
  split.
  - intros e. unfold onFetchError, classify, messageResponse, set_error.
    cbn [data response error]. reflexivity.
  - intros ctx' Hrun.
    destruct (onFetchError_result ctx ctx' Hrun)
      as [[Hr ->] | [r [e [Hr [He ->]]]]].
    + now rewrite (onFetchError_without_response (set_error ctx _) Hr).
    + exact (onFetchError_with_response (set_error ctx _) r e Hr He).
Qed.

Lemma onFetchError_idempotent_witness :
  onFetchError
    {| data := not_authenticated_body;
       error := VObj [("message", VStr "Not authenticated");
                      ("type", VStr "others");
                      ("errorCode", VNum 401);
                      ("raw", not_authenticated_body);
                      ("endpoint", VStr "/me")];
       response := Some {| status := 401; url := "/me" |} |}
  = inr {| data := not_authenticated_body;
           error := VObj [("message", VStr "Not authenticated");
                          ("type", VStr "others");
                          ("errorCode", VNum 401);
                          ("raw", not_authenticated_body);
                          ("endpoint", VStr "/me")];
           response := Some {| status := 401; url := "/me" |} |}
  /\ onFetchError
       (set_error (with_response not_authenticated_body 401 "/me")
          (VObj [("extra", VStr "kept?")]))
     = onFetchError (with_response not_authenticated_body 401 "/me").
Proof.
  split.
  - exact (proj2 (onFetchError_idempotent
                    (with_response not_authenticated_body 401 "/me")) _ eq_refl).
  - exact (proj1 (onFetchError_idempotent
                    (with_response not_authenticated_body 401 "/me"))
             (VObj [("extra", VStr "kept?")])).
Defined.

(** The [type] of the error depends on the response alone, not on the
    body: ["unknown"] without a response, ["fastapiError"] for 422 and
    400, ["notFound"] for 404, ["serverError"] for 502, 503, 504 and 500,
    and ["others"] for every other status. *)
Theorem onFetchError_type_by_status (ctx ctx' : Ctx) :
  onFetchError ctx = inr ctx' ->
  error_field ctx' "type" = VStr (error_type (response ctx)).
Proof.
  intros Hrun.
  destruct (onFetchError_result ctx ctx' Hrun)
    as [[Hr ->] | [r [e [Hr [He ->]]]]]; rewrite Hr.
  - reflexivity.
  - unfold error_field. cbn [error set_error].
    rewrite trailing_fields_keep by discriminate.
    destruct (is_fastapi_status (status r)) eqn:Hs.
    + destruct (classify_fastapi_keys ctx r e Hs He) as [Ht _].
      rewrite Ht. unfold error_type. now rewrite Hs.
    + destruct (classify_defaulted ctx r Hs) as [e' [He' [Ht _]]].
      rewrite He in He'. injection He' as <-. exact Ht.
Qed.

Lemma onFetchError_type_by_status_witness :
  error_field
    {| data := VNull;
       error := VObj [("message", VStr "Gateway Timeout Error");
                      ("type", VStr "serverError");
                      ("errorCode", VNum 504);
                      ("raw", VNull);
                      ("endpoint", VStr "/reports")];
       response := Some {| status := 504; url := "/reports" |} |}
    "type"
  = VStr "serverError".
Proof.
  exact (onFetchError_type_by_status (with_response VNull 504 "/reports") _
           eq_refl).
Defined.

(** Outside the validation branch the message never stays empty: a
    response whose body is absent or otherwise falsy gets the default
    message of its status (["Bad Gateway"] for 502, ["Service is not
    available right now."] for 503, ["Gateway Timeout Error"] for 504,
    ["Miscellaneous Error"] for an unmapped status, ...), and a truthy
    body gets the extracted message, never the default. *)
Theorem onFetchError_default_message (ctx : Ctx) (r : Response) :
  response ctx = Some r ->
  is_fastapi_status (status r) = false ->
  exists ctx',
    onFetchError ctx = inr ctx'
    /\ error_field ctx' "message"
       = (if truthy (data ctx) then extracted_message ctx
          else VStr (default_message (status r)))
    /\ truthy (error_field ctx' "message") = true.
Proof.
  intros Hr Hs.
  destruct (classify_defaulted ctx r Hs) as [e [He [_ [Hm _]]]].
  eexists. split; [apply (onFetchError_with_response ctx r e Hr He)|].
  unfold error_field. cbn [error set_error].
  rewrite trailing_fields_keep by discriminate. rewrite Hm.
  cbn [first_truthy].
  destruct (truthy (data ctx)) eqn:Hd.
  - rewrite (extracted_message_truthy ctx r Hr Hd). split; [reflexivity|].
    apply (extracted_message_truthy ctx r Hr Hd).
  - rewrite (extracted_message_absent ctx Hd). cbn [truthy]. split; [reflexivity|].
    unfold default_message.
    repeat match goal with
           | |- context [if ?c then _ else _] => destruct c
           end; reflexivity.
Qed.

Lemma onFetchError_default_message_witness :
  exists ctx',
    onFetchError (with_response VNull 503 "/reports") = inr ctx'
    /\ error_field ctx' "message" = VStr "Service is not available right now."
    /\ truthy (error_field ctx' "message") = true.
Proof.
  exact (onFetchError_default_message (with_response VNull 503 "/reports")
           {| status := 503; url := "/reports" |} eq_refl eq_refl).
Defined.

(** The shape of the error object: [message] and [type] are always set;
    [location] is set in the validation and the 404 branch only; and the
    [extra] and [timestamp] properties of [ErrorDetails] are never
    set. *)
Theorem onFetchError_error_shape (ctx ctx' : Ctx) :
  onFetchError ctx = inr ctx' ->
  error_has ctx' "message" = true
  /\ error_has ctx' "type" = true
  /\ error_has ctx' "location"
     = (match response ctx with
        | Some r => is_fastapi_status (status r) || (status r =? 404)
        | None => false
        end)
  /\ error_has ctx' "extra" = false
  /\ error_has ctx' "timestamp" = false.
Proof.
  intros Hrun.
  destruct (onFetchError_result ctx ctx' Hrun)
    as [[Hr ->] | [r [e [Hr [He ->]]]]]; rewrite Hr.
  - repeat split.
  - unfold error_has, set_field. cbn [error set_error].
    rewrite !has_key_assign_other by discriminate.
    destruct (is_fastapi_status (status r)) eqn:Hs.
    + destruct (classify_fastapi_keys ctx r e Hs He)
        as [_ [Hm [Ht [Hl [Hx Hts]]]]].
      rewrite Hm, Ht, Hl, Hx, Hts. repeat split.
    + destruct (classify_defaulted ctx r Hs)
        as [e' [He' [_ [_ [Hm [Ht [Hl [Hx Hts]]]]]]]].
      rewrite He in He'. injection He' as <-.
      rewrite Hm, Ht, Hl, Hx, Hts. repeat split.
Qed.

Lemma onFetchError_error_shape_witness :
  error_has
    {| data := VNull;
       error := VObj [("message", VStr "Gateway Timeout Error");
                      ("type", VStr "serverError");
                      ("errorCode", VNum 504);
                      ("raw", VNull);
                      ("endpoint", VStr "/reports")];
       response := Some {| status := 504; url := "/reports" |} |}
    "timestamp"
  = false.
Proof.
  exact (proj2 (proj2 (proj2 (proj2
           (onFetchError_error_shape (with_response VNull 504 "/reports") _
              eq_refl))))).
Defined.

(** Message extraction never throws, and it yields [undefined] exactly
    when there is no response or the body is falsy; in every other case
    the extracted message is truthy. *)
Theorem messageResponse_undefined_iff (ctx : Ctx) :
  exists v,
    messageResponse ctx = inr v
    /\ (v = VUndef <-> response ctx = None \/ truthy (data ctx) = false)
    /\ (truthy v = false <-> v = VUndef).
Proof.
  exists (extracted_message ctx). split; [apply messageResponse_value|].
  destruct (response ctx) as [r|] eqn:Hr.
  - destruct (truthy (data ctx)) eqn:Hd.
    + pose proof (extracted_message_truthy ctx r Hr Hd) as Ht.
      split; split.
      * intros Hv. rewrite Hv in Ht. discriminate.
      * intros [H|H]; discriminate.
      * rewrite Ht. discriminate.
      * intros Hv. rewrite Hv in Ht. discriminate.
    + rewrite (extracted_message_absent ctx Hd). split; split; auto.
  - unfold extracted_message. rewrite Hr. split; split; auto.
Qed.

(** FastAPI's [HTTPException]: a body whose [detail] is a non-empty
    string yields that string as the message, whatever else the body
    holds. *)
Theorem messageResponse_string_detail
        (ctx : Ctx) (r : Response) (fs : Fields) (s : string) :
  response ctx = Some r ->
  data ctx = VObj fs ->
  lookup "detail" fs = VStr s ->
  String.eqb s "" = false ->
  messageResponse ctx = inr (VStr s).
Proof.
  intros Hr Hd Hdet Hs. rewrite messageResponse_value.
  assert (Hf : field (VObj fs) "detail" = VStr s) by exact Hdet.
  unfold extracted_message. rewrite Hr, Hd. cbn [truthy]. rewrite !Hf.
  cbn [truthy]. rewrite Hs. cbn [negb].
  destruct s as [|c s']; [discriminate|]. reflexivity.
Qed.

Lemma messageResponse_string_detail_witness :
  messageResponse (with_response not_authenticated_body 401 "/me")
  = inr (VStr "Not authenticated").
Proof.
  exact (messageResponse_string_detail
           (with_response not_authenticated_body 401 "/me")
           {| status := 401; url := "/me" |}
           [("detail", VStr "Not authenticated"); ("message", VStr "ignored")]
           "Not authenticated" eq_refl eq_refl eq_refl eq_refl).
Defined.

Lemma messageResponse_detail_witness :
  messageResponse (with_response two_errors_body 422 "/items")
  = inr (VStr "field required").
Proof.
  exact (messageResponse_detail (with_response two_errors_body 422 "/items")
           {| status := 422; url := "/items" |} eq_refl eq_refl eq_refl).
Defined.

(** Of several validation errors only the first is reported: message and
    location both come from the first entry of [detail], and the entries
    after it have no influence. *)
Theorem onFetchError_first_validation_error
        (ctx : Ctx) (r : Response) (fs entry : Fields) (rest : list JsVal) :
  response ctx = Some r ->
  is_fastapi_status (status r) = true ->
  data ctx = VObj fs ->
  lookup "detail" fs = VArr (VObj entry :: rest) ->
  truthy (lookup "msg" entry) = true ->
  exists ctx',
    onFetchError ctx = inr ctx'
    /\ error_field ctx' "message" = lookup "msg" entry
    /\ error_field ctx' "location"
       = (if truthy (lookup "loc" entry) then lookup "loc" entry else VNull).
Proof.
  intros Hr Hs Hd Hdet Hmsg.
  assert (Hn : nullish (data ctx) = false) by now rewrite Hd.
  destruct (fastapi_error_with_body ctx r Hr Hs Hn)
    as [ctx' [Hrun [_ [Hm [Hl _]]]]].
  exists ctx'. split; [exact Hrun|]. rewrite Hm, Hl.
  assert (Hf : field (VObj fs) "detail" = VArr (VObj entry :: rest))
    by exact Hdet.
  assert (Hfirst : forall k,
             opt_field (opt_item (VArr (VObj entry :: rest)) 0) k
             = lookup k entry) by reflexivity.
  unfold extracted_message, first_loc. rewrite Hr, Hd. cbn [truthy].
  rewrite !Hf. cbn [truthy first_truthy]. rewrite !Hfirst, Hmsg. auto.
Qed.

Lemma onFetchError_first_validation_error_witness :
  exists ctx',
    onFetchError (with_response two_errors_body 422 "/items") = inr ctx'
    /\ error_field ctx' "message" = VStr "field required"
    /\ error_field ctx' "location" = VArr [VStr "body"; VStr "name"].
Proof.
  exact (onFetchError_first_validation_error
           (with_response two_errors_body 422 "/items")
           {| status := 422; url := "/items" |}
           [("detail",
             VArr [VObj [("msg", VStr "field required");
                         ("loc", VArr [VStr "body"; VStr "name"])];
                   VObj [("msg", VStr "value is not a valid integer");
                         ("loc", VArr [VStr "body"; VStr "price"])]])]
           [("msg", VStr "field required");
            ("loc", VArr [VStr "body"; VStr "name"])]
           [VObj [("msg", VStr "value is not a valid integer");
                  ("loc", VArr [VStr "body"; VStr "price"])]]
           eq_refl eq_refl eq_refl eq_refl eq_refl).
Defined.

(* ===================================================================== *)
(** ** Further properties of the toggleable text *)
(* ===================================================================== *)

Lemma calls_app (cs cs' : list N3EG.Call) (s : N3EG.Store) :
  execState (N3EG.calls (cs ++ cs')) s
  = execState (N3EG.calls cs') (execState (N3EG.calls cs) s).
Proof.
  revert s. induction cs as [|c cs IH]; intros s.
  - reflexivity.
  - destruct c; apply IH.
Qed.

(** The last call wins: after any run of [edit] and [reset] calls the
    text is what the last call alone leaves, whatever the earlier calls
    and the earlier text were. *)
Theorem last_call_wins (cs : list N3EG.Call) (c : N3EG.Call) (s : N3EG.Store) :
  N3EG.text (execState (N3EG.calls (cs ++ [c])) s) = text_after c.
Proof.
  rewrite calls_app. now destruct c.
Qed.

Lemma onFetchError_throws_iff_witness :
  onFetchError (with_response VUndef 400 "/items") = inl TypeError.
Proof.
  apply (proj2 (onFetchError_throws_iff (with_response VUndef 400 "/items"))).
  exists {| status := 400; url := "/items" |}. repeat split.
Defined.

Lemma messageResponse_undefined_iff_witness :
  exists v,
    messageResponse (without_response field_required_body VUndef) = inr v
    /\ v = VUndef.
Proof.
  destruct (messageResponse_undefined_iff
              (without_response field_required_body VUndef))
    as [v [Hrun [Hundef _]]].
  exists v. split; [exact Hrun|]. apply (proj2 Hundef). left. reflexivity.
Defined.
